(** * The task monitor page (frontend/src/app/page.tsx)

    A shallow embedding of the [Home] component: its React state, the
    WebSocket held in [wsRef], the handlers [ws.onmessage], [handleSubmit]
    and [handleStop], and the controls that call them.  The statements at
    the end are the session-protocol properties of the component. *)

From Stdlib Require Import String Ascii List ZArith Bool Lia DecimalString.
Import ListNotations.
Local Open Scope string_scope.
Set Warnings "-register-all".

(** ** JavaScript values, as [JSON.parse] returns them *)

Module JS.

(** The integers a double holds exactly, one by one:
    [Number.MIN_SAFE_INTEGER] to [Number.MAX_SAFE_INTEGER]. *)
Definition is_safe_integer (z : Z) : bool :=
  (Z.abs z <=? 9007199254740991)%Z.

(** A number.  [Int z] is a safe integer, and those print as their plain
    decimal digits; any other double (a fraction, an integer beyond 2^53
    such as 2^64, which prints as 18446744073709552000) is kept by the
    text that [Number.prototype.toString] gives for it. *)
Inductive number :=
| Int (z : Z) (safe : is_safe_integer z = true)
| Other (repr : string).

Inductive value :=
| Undefined
| Null
| Bool (b : bool)
| Num (n : number)
| Str (s : string)
| Arr (items : list value)
| Obj (props : list (string * value)).

Definition number_toString (n : number) : string :=
  match n with
  | Int z _ => NilZero.string_of_int (Z.to_int z)
  | Other repr => repr
  end.

(** Own property lookup on a parsed object. *)
Fixpoint own (k : string) (props : list (string * value)) : option value :=
  match props with
  | [] => None
  | (k', v) :: rest => if String.eqb k' k then Some v else own k rest
  end.

Definition hasOwn (k : string) (props : list (string * value)) : bool :=
  match own k props with Some _ => true | None => false end.

(** [k in v], for the keys this page uses (none of them is on
    [Object.prototype] or [Array.prototype], and none is an index or
    ["length"]).  [None] is the TypeError that [in] raises on a
    primitive. *)
Definition has (k : string) (v : value) : option bool :=
  match v with
  | Obj props => Some (hasOwn k props)
  | Arr _ => Some false
  | _ => None
  end.

(** [v.k], on a value that [in] accepted. *)
Definition get (v : value) (k : string) : value :=
  match v with
  | Obj props => match own k props with Some x => x | None => Undefined end
  | _ => Undefined
  end.

(** [v === s] for a string literal [s]. *)
Definition is_str (v : value) (s : string) : bool :=
  match v with
  | Str t => String.eqb t s
  | _ => false
  end.

(** Truthiness, as [if (v)] tests it.  [JSON.parse] yields no NaN, and a
    number that is not an integer is not zero. *)
Definition ToBoolean (v : value) : bool :=
  match v with
  | Undefined | Null => false
  | Bool b => b
  | Num (Int z _) => negb (Z.eqb z 0)
  | Num (Other _) => true
  | Str s => negb (String.eqb s "")
  | Arr _ | Obj _ => true
  end.

(** [`${v}`].  An array prints its elements joined by commas, with
    [null] and [undefined] as the empty text.  A parsed object prints
    through [Object.prototype.toString] unless an own ["toString"]
    property (never callable in parsed JSON) hides it, and then the
    conversion raises TypeError: [None]. *)
Fixpoint ToString (v : value) : option string :=
  match v with
  | Undefined => Some "undefined"
  | Null => Some "null"
  | Bool true => Some "true"
  | Bool false => Some "false"
  | Num n => Some (number_toString n)
  | Str s => Some s
  | Arr items =>
      (fix join (l : list value) : option string :=
         match l with
         | [] => Some ""
         | x :: rest =>
             let elem :=
               match x with
               | Undefined | Null => Some ""
               | _ => ToString x
               end in
             match elem, rest with
             | None, _ => None
             | Some e, [] => Some e
             | Some e, _ :: _ =>
                 match join rest with
                 | Some r => Some (e ++ "," ++ r)
                 | None => None
                 end
             end
         end) items
  | Obj props => if hasOwn "toString" props then None else Some "[object Object]"
  end.

(** What React accepts as a child of an element: text, numbers, the
    values it renders as nothing ([null], [undefined], booleans), and
    arrays of such.  On a plain object it throws "Objects are not valid as
    a React child". *)
Fixpoint valid_child (v : value) : bool :=
  match v with
  | Obj _ => false
  | Arr items =>
      (fix all (l : list value) : bool :=
         match l with
         | [] => true
         | x :: rest => valid_child x && all rest
         end) items
  | _ => true
  end.

End JS.
Import JS.

(** ** The component's state *)

(** The six [useState] cells.  [result] and [error] are typed [string] and
    [string | null] in the source, but [ws.onmessage] stores whatever the
    message carries, so they hold a value. *)
Record State := mkState {
  task : string;
  logs : list string;
  screenshot : option string;
  result : value;
  error : value;
  isLoading : bool
}.

Inductive ReadyState := CONNECTING | OPEN | CLOSING | CLOSED.

(** The socket: its [readyState] and the frames written with [send]. *)
Record WebSocket := mkSocket {
  readyState : ReadyState;
  sent : list string
}.

(** A [fetch] call: URL, method, and the object given to
    [JSON.stringify] for the body. *)
Record Request := mkRequest {
  url : string;
  method : string;
  body : value
}.

Inductive ConsoleArg :=
| Text (s : string)
| Val (v : value)
| DomEvent.

Inductive ConsoleEntry :=
| console_log (args : list ConsoleArg)
| console_error (args : list ConsoleArg).

(** The component with what it acts on: the state cells, [wsRef.current],
    the submission calls issued so far and how many of them are still
    awaited, and the console. *)
Record Home := mkHome {
  state : State;
  wsRef : option WebSocket;
  requests : list Request;
  awaiting : nat;
  console : list ConsoleEntry
}.

Definition default_task : string :=
  "Navigate to https://www.google.com, input 'Python' into the search bar, wait 5 seconds, click the first search result link using a CSS selector like 'h3' within 'a', wait 5 seconds, then extract all text content from the page.".

(** First render: the [useState] initial values, [useRef(null)]. *)
Definition initial : Home :=
  mkHome (mkState default_task [] None (Str "") Null false) None [] 0 [].

(** ** Handlers as state transformers that may throw *)

Inductive Thrown := SyntaxError | TypeError.

(** How a handler run ends.  [Unmounts]: the render that follows the run
    throws, because a state updater threw while React applied it or because
    a cell now holds what cannot be rendered, and the page is taken
    down. *)
Inductive Completion (A : Type) :=
| Returns (a : A)
| Throws (e : Thrown)
| Unmounts.
Arguments Returns {A} a.
Arguments Throws {A} e.
Arguments Unmounts {A}.

Definition Handler (A : Type) : Type := Home -> Completion A * Home.

Definition ret {A} (a : A) : Handler A := fun h => (Returns a, h).

Definition bind {A B} (m : Handler A) (k : A -> Handler B) : Handler B :=
  fun h =>
    match m h with
    | (Returns a, h') => k a h'
    | (Throws e, h') => (Throws e, h')
    | (Unmounts, h') => (Unmounts, h')
    end.

Declare Scope handler_scope.
Delimit Scope handler_scope with handler.
Notation "x <- m ;; k" := (bind m (fun x => k))
  (at level 61, m at next level, right associativity) : handler_scope.
Notation "m ;; k" := (bind m (fun _ => k))
  (at level 61, right associativity) : handler_scope.
Local Open Scope handler_scope.

Definition throw {A} (e : Thrown) : Handler A := fun h => (Throws e, h).

Definition unmount {A} : Handler A := fun h => (Unmounts, h).

(** An operation that throws [e] when it has no value. *)
Definition or_throw {A} (e : Thrown) (o : option A) : Handler A :=
  match o with
  | Some a => ret a
  | None => throw e
  end.

Definition on_state (f : State -> State) (h : Home) : Home :=
  mkHome (f (state h)) (wsRef h) (requests h) (awaiting h) (console h).

Definition update (f : State -> State) : Handler unit :=
  fun h => (Returns tt, on_state f h).

(** A handler reads the cells of the latest render. *)
Definition read {A} (f : State -> A) : Handler A :=
  fun h => (Returns (f (state h)), h).

(** The state setters. *)
Definition setTask (x : string) : Handler unit :=
  update (fun s => mkState x (logs s) (screenshot s) (result s) (error s) (isLoading s)).

Definition setLogs (x : list string) : Handler unit :=
  update (fun s => mkState (task s) x (screenshot s) (result s) (error s) (isLoading s)).

Definition setScreenshot (x : option string) : Handler unit :=
  update (fun s => mkState (task s) (logs s) x (result s) (error s) (isLoading s)).

(** [setResult(x)] and [setError(x)].  The render that follows puts a truthy
    [x] in the tree as a child ([<pre>{result}</pre>], [<p>{error}</p>],
    lines 163-177), and whatever is not a valid child is truthy: storing
    it fails that render and takes the page down.  Nothing that follows
    these calls in this page has an effect outside the state, so the run
    ends there. *)
Definition setResult (x : value) : Handler unit :=
  if valid_child x
  then update (fun s => mkState (task s) (logs s) (screenshot s) x (error s) (isLoading s))
  else unmount.

Definition setError (x : value) : Handler unit :=
  if valid_child x
  then update (fun s => mkState (task s) (logs s) (screenshot s) (result s) x (isLoading s))
  else unmount.

Definition setIsLoading (x : bool) : Handler unit :=
  update (fun s => mkState (task s) (logs s) (screenshot s) (result s) (error s) x).

(** [setLogs(prev => ...)]: React runs the updater on the latest [logs];
    an updater that throws fails the render.  Nothing that follows such a
    call in this page has an effect outside the state, so the run ends
    there. *)
Definition setLogs_with (f : list string -> option (list string)) : Handler unit :=
  prev <- read logs ;;
  match f prev with
  | Some next => setLogs next
  | None => unmount
  end.

Definition log_console (e : ConsoleEntry) : Handler unit :=
  fun h => (Returns tt, mkHome (state h) (wsRef h) (requests h) (awaiting h) (console h ++ [e])%list).

(** ** The socket effect (lines 33-60) *)

(** [new WebSocket("ws://localhost:8000/ws")], stored in [wsRef.current].
    The cleanup that closes the socket runs when the page goes away, after
    any run considered here. *)
Definition open_socket : Handler unit :=
  fun h => (Returns tt,
            mkHome (state h) (Some (mkSocket CONNECTING [])) (requests h) (awaiting h) (console h)).

(** The browser moves the socket to [r] before it calls a handler. *)
Definition socket_becomes (r : ReadyState) : Handler unit :=
  fun h => (Returns tt,
            mkHome (state h)
                   (match wsRef h with
                    | Some ws => Some (mkSocket r (sent ws))
                    | None => None
                    end)
                   (requests h) (awaiting h) (console h)).

Definition onopen : Handler unit :=
  log_console (console_log [Text "WebSocket connected"]).

Definition onerror : Handler unit :=
  log_console (console_error [Text "WebSocket error:"; DomEvent]).

Definition onclose : Handler unit :=
  log_console (console_log [Text "WebSocket closed"]).

(** [event.data] as [JSON.parse] reads it: [None] when the text is not
    JSON and [JSON.parse] throws SyntaxError. *)
Definition MessageData : Type := option value.

Definition step_line (stepData : value) : option string :=
  match ToString (get stepData "step"), ToString (get stepData "thought") with
  | Some n, Some t => Some ("Step " ++ n ++ ": " ++ t)
  | _, _ => None
  end.

Definition onmessage (event_data : MessageData) : Handler unit :=
  data <- or_throw SyntaxError event_data ;;
  has_status <- or_throw TypeError (has "status" data) ;;
  if has_status then
    if is_str (get data "status") "done" then
      setResult (get data "result") ;;
      setIsLoading false
    else if is_str (get data "status") "error" then
      setError (get data "message") ;;
      setIsLoading false
    else ret tt
  else
    let stepData := data in
    setLogs_with (fun prev =>
      match step_line stepData with
      | Some line => Some (prev ++ [line])%list
      | None => None
      end) ;;
    if ToBoolean (get stepData "screenshot") then
      payload <- or_throw TypeError (ToString (get stepData "screenshot")) ;;
      setScreenshot (Some ("data:image/png;base64," ++ payload))
    else ret tt.

(** ** Submission (lines 62-85) *)

(** How the awaited part of [handleSubmit] ends: [fetch] rejects with an
    exception carrying [message], or it resolves to a response with its
    [ok] flag and what [response.json()] gives ([inl message] when that
    rejects). *)
Inductive FetchOutcome :=
| Rejected (message : string)
| Response (ok : bool) (json : string + value).

Definition fetch (r : Request) : Handler unit :=
  fun h => (Returns tt,
            mkHome (state h) (wsRef h) (requests h ++ [r])%list (S (awaiting h)) (console h)).

(** The call [handleSubmit] makes for the task text [t]. *)
Definition run_task (t : string) : Request :=
  mkRequest "http://localhost:8000/run-task" "POST" (Obj [("task", Str t)]).

(** [handleSubmit] up to its first [await]. *)
Definition handleSubmit : Handler unit :=
  t <- read task ;;
  loading <- read isLoading ;;
  if (String.eqb t "" || loading)%bool then ret tt
  else
    setLogs [] ;;
    setScreenshot None ;;
    setResult (Str "") ;;
    setError Null ;;
    setIsLoading true ;;
    fetch (run_task t).

(** The message the [catch] block receives, if the [try] block throws. *)
Definition caught (o : FetchOutcome) : option string :=
  match o with
  | Rejected message => Some message
  | Response false _ => Some "Failed to start task"
  | Response true (inl message) => Some message
  | Response true (inr _) => None
  end.

(** [handleSubmit] after its awaits: the rest of the [try] block, or the
    [catch] block.  The continuation between the two awaits touches
    nothing, so both are resumed in one step. *)
Definition handleSubmit_resume (o : FetchOutcome) : Handler unit :=
  match o with
  | Response true (inr data) => log_console (console_log [Val data])
  | _ =>
      match caught o with
      | Some message => setError (Str message) ;; setIsLoading false
      | None => ret tt
      end
  end.

(** ** Cancellation (lines 87-91) *)

Definition send (frame : string) : Handler unit :=
  fun h => (Returns tt,
            mkHome (state h)
                   (match wsRef h with
                    | Some ws => Some (mkSocket (readyState ws) (sent ws ++ [frame])%list)
                    | None => None
                    end)
                   (requests h) (awaiting h) (console h)).

(** The frames written to the socket so far. *)
Definition sent_frames (h : Home) : list string :=
  match wsRef h with
  | Some ws => sent ws
  | None => []
  end.

Definition is_open (ws : option WebSocket) : bool :=
  match ws with
  | Some (mkSocket OPEN _) => true
  | _ => false
  end.

Definition handleStop : Handler unit :=
  fun h => if is_open (wsRef h) then send "stop" h else ret tt h.

(** ** The controls (lines 100-140) *)

(** The textarea: [onChange] sets the task; [disabled={isLoading}]. *)
Definition textarea_change (text : string) : Handler unit :=
  loading <- read isLoading ;;
  if loading then ret tt else setTask text.

(** The form: [onSubmit={handleSubmit}]. *)
Definition form_submit : Handler unit := handleSubmit.

(** The Stop button: [onClick={handleStop}], [disabled={!isLoading}].  A
    disabled button delivers no click. *)
Definition stop_click : Handler unit :=
  loading <- read isLoading ;;
  if negb loading then ret tt else handleStop.

(** ** Events and runs *)

Inductive Event :=
| Mount
| WsOpen
| WsMessage (d : MessageData)
| WsError
| WsClose
| TaskEdited (text : string)
| FormSubmitted
| FetchSettled (o : FetchOutcome)
| StopClicked.

Definition settle (o : FetchOutcome) : Handler unit :=
  fun h =>
    match awaiting h with
    | O => ret tt h
    | S n =>
        handleSubmit_resume o
          (mkHome (state h) (wsRef h) (requests h) n (console h))
    end.

Definition handle (e : Event) : Handler unit :=
  match e with
  | Mount => open_socket
  | WsOpen => socket_becomes OPEN ;; onopen
  | WsMessage d => onmessage d
  | WsError => onerror
  | WsClose => socket_becomes CLOSED ;; onclose
  | TaskEdited text => textarea_change text
  | FormSubmitted => form_submit
  | FetchSettled o => settle o
  | StopClicked => stop_click
  end.

(** The page after a handler run: an exception that escapes a handler is
    reported by the browser and the page lives on with the updates made
    before it; a failed render leaves no page.  The renders that fail are
    the ones the setters end in [Unmounts] for: the log updater that
    throws, and a result or an error that is not a valid child. *)
Definition after (m : Handler unit) (h : Home) : option Home :=
  match m h with
  | (Returns _, h') => Some h'
  | (Throws _, h') => Some h'
  | (Unmounts, _) => None
  end.

Fixpoint run (es : list Event) (h : Home) : option Home :=
  match es with
  | [] => Some h
  | e :: rest =>
      match after (handle e) h with
      | Some h' => run rest h'
      | None => None
      end
  end.

(** ** The wire shapes (lines 5-20) *)

Module Wire.

Record StepData := mkStep {
  step : number;
  thought : string;
  actions : list (list (string * value));
  screenshot : option string
}.

Inductive TerminalData :=
| DoneData (result : string)
| ErrorData (message : string).

(** The parsed message of each shape. *)
Definition step_json (sd : StepData) : value :=
  Obj ([("step", Num (step sd));
        ("thought", Str (thought sd));
        ("actions", Arr (map Obj (actions sd)))]
       ++ match screenshot sd with
          | Some payload => [("screenshot", Str payload)]
          | None => []
          end)%list.

Definition terminal_json (td : TerminalData) : value :=
  match td with
  | DoneData result => Obj [("status", Str "done"); ("result", Str result)]
  | ErrorData message => Obj [("status", Str "error"); ("message", Str message)]
  end.

End Wire.

Definition StepEvent (sd : Wire.StepData) : Event :=
  WsMessage (Some (Wire.step_json sd)).

Definition TerminalEvent (td : Wire.TerminalData) : Event :=
  WsMessage (Some (Wire.terminal_json td)).

(** The line [ws.onmessage] derives from a step. *)
Definition log_line (sd : Wire.StepData) : string :=
  "Step " ++ number_toString (Wire.step sd) ++ ": " ++ Wire.thought sd.

(** The image source [ws.onmessage] derives from a payload. *)
Definition data_url (payload : string) : string :=
  "data:image/png;base64," ++ payload.

(** ** The session as the operator sees it *)

Inductive Phase := Idle | Running | Done | Errored.

(** The phase read off the state cells: running while [isLoading]; then
    errored once an error is recorded, done once a result is, idle with
    neither. *)
Definition phase (s : State) : Phase :=
  if isLoading s then Running
  else match error s, result s with
       | Null, Str "" => Idle
       | Null, _ => Done
       | _, _ => Errored
       end.

Definition phase_of (h : Home) : Phase := phase (state h).

(** Events that come from the channel or from the controls other than the
    form: none of them starts or resumes a submission. *)
Definition channel_event (e : Event) : bool :=
  match e with
  | Mount | FormSubmitted | FetchSettled _ => false
  | _ => true
  end.

(** ** Scenarios used as examples *)

Definition connected : Home :=
  mkHome (mkState default_task [] None (Str "") Null false)
         (Some (mkSocket OPEN [])) [] 0
         [console_log [Text "WebSocket connected"]].

Definition step1 : Wire.StepData :=
  Wire.mkStep (Int 1 eq_refl) "searching" [] None.

Definition step2 : Wire.StepData :=
  Wire.mkStep (Int 2 eq_refl) "reading" [[("click", Num (Int 3 eq_refl))]] (Some "iVBORw0KGgo=").

(** ** What a message leaves *)

(** The state a step leaves: one more line, and the frame of a payload
    that is not empty. *)
Definition stepped (sd : Wire.StepData) (s : State) : State :=
  mkState (task s)
          (logs s ++ [log_line sd])
          (match Wire.screenshot sd with
           | Some payload =>
               if String.eqb payload "" then screenshot s
               else Some (data_url payload)
           | None => screenshot s
           end)
          (result s) (error s) (isLoading s).

(** The state a terminal message leaves. *)
Definition ended (td : Wire.TerminalData) (s : State) : State :=
  match td with
  | Wire.DoneData r =>
      mkState (task s) (logs s) (screenshot s) (Str r) (error s) false
  | Wire.ErrorData m =>
      mkState (task s) (logs s) (screenshot s) (result s) (Str m) false
  end.

(** Messages that [ws.onmessage] drops: text that is not JSON, a parsed
    primitive, or an object whose [status] is neither tag. *)
Definition dropped (d : MessageData) : bool :=
  match d with
  | None => true
  | Some v =>
      match has "status" v with
      | None => true
      | Some true =>
          negb (is_str (get v "status") "done")
          && negb (is_str (get v "status") "error")
      | Some false => false
      end
  end.

(** The outcomes that count as a failed request: [fetch] rejects, or the
    response is not [ok] and the handler throws its own error. *)
Inductive request_fails : FetchOutcome -> string -> Prop :=
| transport_exception (message : string) :
    request_fails (Rejected message) message
| non_success_response (json : string + value) :
    request_fails (Response false json) "Failed to start task".

(** ** More pages and steps for the examples *)

Definition accepted_reply : FetchOutcome :=
  Response true (inr (Obj [("status", Str "started")])).

Definition step_loading : Wire.StepData :=
  Wire.mkStep (Int 2 eq_refl) "loading" [] (Some "AAAA").

(** The connected page once "task X" is submitted and the call has
    returned. *)
Definition submitted : Home :=
  mkHome (mkState "task X" [] None (Str "") Null true)
         (Some (mkSocket OPEN [])) [run_task "task X"] 0
         [console_log [Text "WebSocket connected"];
          console_log [Val (Obj [("status", Str "started")])]].

(** That session after its first step. *)
Definition busy : Home :=
  mkHome (mkState "task X" ["Step 1: searching"] None (Str "") Null true)
         (Some (mkSocket OPEN [])) [run_task "task X"] 0
         [console_log [Text "WebSocket connected"];
          console_log [Val (Obj [("status", Str "started")])]].

(** That session ended by an error after a second step with a frame. *)
Definition failed : Home :=
  mkHome (mkState "task X" ["Step 1: searching"; "Step 2: loading"]
                  (Some "data:image/png;base64,AAAA") (Str "") (Str "timeout") false)
         (Some (mkSocket OPEN [])) [run_task "task X"] 0
         [console_log [Text "WebSocket connected"];
          console_log [Val (Obj [("status", Str "started")])]].

(** A step whose [screenshot] field is the empty text. *)
Definition blank_step : Wire.StepData :=
  Wire.mkStep (Int 3 eq_refl) "waiting" [] (Some "").

(** ** The effect's cleanup (line 59) *)

(** [ws.close()]: a socket that is not closed yet starts closing. *)
Definition close : Handler unit :=
  fun h => (Returns tt,
            mkHome (state h)
                   (match wsRef h with
                    | Some (mkSocket CLOSED frames) => Some (mkSocket CLOSED frames)
                    | Some (mkSocket _ frames) => Some (mkSocket CLOSING frames)
                    | None => None
                    end)
                   (requests h) (awaiting h) (console h)).

Definition cleanup : Handler unit := close.

(** ** The rendered page (lines 93-179) *)

Module JSX.

(** The parts of the returned tree that depend on the state. *)
Record Textarea := mkTextarea {
  value : string;
  readonly : bool        (* the [disabled] attribute *)
}.

Record Button := mkButton {
  disabled : bool;
  label : string;
  backgroundColor : string;
  cursor : string
}.

(** [logs.length > 0 ? <ul>...</ul> : <p>No updates yet...</p>], the
    items with their [key]. *)
Inductive Updates :=
| Items (li : list (nat * string))
| Placeholder (text : string).

(** [v && <panel>{v}</panel>]: the panel with its child when [v] is
    truthy, and [v] itself otherwise. *)
Inductive Slot :=
| Panel (heading : string) (child : JS.value)
| Falsy (v : JS.value).

Record View := mkView {
  textarea : Textarea;
  run_button : Button;
  stop_button : Button;
  updates : Updates;
  img_src : option string;
  error_slot : Slot;
  result_slot : Slot
}.

End JSX.

Definition slot (heading : string) (v : value) : JSX.Slot :=
  if ToBoolean v then JSX.Panel heading v else JSX.Falsy v.

Definition render (s : State) : JSX.View :=
  JSX.mkView
    (JSX.mkTextarea (task s) (isLoading s))
    (JSX.mkButton (isLoading s)
                  (if isLoading s then "Running..." else "Run Task")
                  (if isLoading s then "#ccc" else "#0070f3")
                  (if isLoading s then "not-allowed" else "pointer"))
    (JSX.mkButton (negb (isLoading s))
                  "Stop"
                  (if negb (isLoading s) then "#ccc" else "#ff4444")
                  (if negb (isLoading s) then "not-allowed" else "pointer"))
    (if (0 <? length (logs s))%nat
     then JSX.Items (combine (seq 0 (length (logs s))) (logs s))
     else JSX.Placeholder "No updates yet...")
    (match screenshot s with
     | Some src => if String.eqb src "" then None else Some src
     | None => None
     end)
    (slot "Error" (error s))
    (slot "Result" (result s)).

(** ** One event, as a relation *)

(** What [ws.onmessage] can do to the state cells. *)
Inductive onmessage_effect (s : State) : State -> Prop :=
| effect_none :
    onmessage_effect s s
| effect_done (v : value) :
    onmessage_effect s
      (mkState (task s) (logs s) (screenshot s) v (error s) false)
| effect_error (v : value) :
    onmessage_effect s
      (mkState (task s) (logs s) (screenshot s) (result s) v false)
| effect_line (line : string) :
    onmessage_effect s
      (mkState (task s) (logs s ++ [("Step " ++ line)%string])%list (screenshot s)
               (result s) (error s) (isLoading s))
| effect_line_frame (line payload : string) :
    onmessage_effect s
      (mkState (task s) (logs s ++ [("Step " ++ line)%string])%list
               (Some (data_url payload)) (result s) (error s) (isLoading s)).

Definition with_socket (f : WebSocket -> WebSocket) (h : Home) : Home :=
  mkHome (state h)
         (match wsRef h with Some ws => Some (f ws) | None => None end)
         (requests h) (awaiting h) (console h).

(** The page after one event that leaves it mounted. *)
Inductive moves (h : Home) : Event -> Home -> Prop :=
| moves_mount :
    moves h Mount
      (mkHome (state h) (Some (mkSocket CONNECTING [])) (requests h)
              (awaiting h) (console h))
| moves_open :
    moves h WsOpen
      (mkHome (state h)
              (match wsRef h with
               | Some ws => Some (mkSocket OPEN (sent ws))
               | None => None
               end)
              (requests h) (awaiting h)
              (console h ++ [console_log [Text "WebSocket connected"]])%list)
| moves_message (d : MessageData) (s' : State) :
    onmessage_effect (state h) s' ->
    moves h (WsMessage d)
      (mkHome s' (wsRef h) (requests h) (awaiting h) (console h))
| moves_error :
    moves h WsError
      (mkHome (state h) (wsRef h) (requests h) (awaiting h)
              (console h ++ [console_error [Text "WebSocket error:"; DomEvent]])%list)
| moves_close :
    moves h WsClose
      (mkHome (state h)
              (match wsRef h with
               | Some ws => Some (mkSocket CLOSED (sent ws))
               | None => None
               end)
              (requests h) (awaiting h)
              (console h ++ [console_log [Text "WebSocket closed"]])%list)
| moves_edit_ignored (text : string) :
    isLoading (state h) = true ->
    moves h (TaskEdited text) h
| moves_edit (text : string) :
    isLoading (state h) = false ->
    moves h (TaskEdited text)
      (mkHome (mkState text (logs (state h)) (screenshot (state h))
                       (result (state h)) (error (state h)) false)
              (wsRef h) (requests h) (awaiting h) (console h))
| moves_submit_ignored :
    isLoading (state h) = true \/ task (state h) = "" ->
    moves h FormSubmitted h
| moves_submit :
    isLoading (state h) = false ->
    task (state h) <> "" ->
    moves h FormSubmitted
      (mkHome (mkState (task (state h)) [] None (Str "") Null true)
              (wsRef h) (requests h ++ [run_task (task (state h))])%list
              (S (awaiting h)) (console h))
| moves_settle_none (o : FetchOutcome) :
    awaiting h = O ->
    moves h (FetchSettled o) h
| moves_settle_ok (n : nat) (data : value) :
    awaiting h = S n ->
    moves h (FetchSettled (Response true (inr data)))
      (mkHome (state h) (wsRef h) (requests h) n
              (console h ++ [console_log [Val data]])%list)
| moves_settle_caught (n : nat) (o : FetchOutcome) (message : string) :
    awaiting h = S n ->
    caught o = Some message ->
    moves h (FetchSettled o)
      (mkHome (mkState (task (state h)) (logs (state h)) (screenshot (state h))
                       (result (state h)) (Str message) false)
              (wsRef h) (requests h) n (console h))
| moves_stop_ignored :
    isLoading (state h) = false \/ is_open (wsRef h) = false ->
    moves h StopClicked h
| moves_stop (ws : WebSocket) :
    isLoading (state h) = true ->
    wsRef h = Some ws ->
    readyState ws = OPEN ->
    moves h StopClicked
      (mkHome (state h) (Some (mkSocket OPEN (sent ws ++ ["stop"])%list))
              (requests h) (awaiting h) (console h)).

(** ** Kinds of events *)

Definition is_submit (e : Event) : bool :=
  match e with FormSubmitted => true | _ => false end.

Definition is_edit (e : Event) : bool :=
  match e with TaskEdited _ => true | _ => false end.

(** The events that give the page a socket or open it. *)
Definition opens_socket (e : Event) : bool :=
  match e with Mount | WsOpen => true | _ => false end.

(** What a message with a [status] stores as the result or the error, if
    it stores anything. *)
Definition stored (v : value) : option value :=
  if is_str (get v "status") "done" then Some (get v "result")
  else if is_str (get v "status") "error" then Some (get v "message")
  else None.

(** The events that leave the page mounted: all but a message without
    [status] whose [step] or [thought] has no text, and a message that
    stores what is not a valid child. *)
Definition survivable (e : Event) : bool :=
  match e with
  | WsMessage (Some v) =>
      match has "status" v with
      | Some false =>
          match step_line v with Some _ => true | None => false end
      | Some true =>
          match stored v with Some x => valid_child x | None => true end
      | None => true
      end
  | _ => true
  end.

Definition any_event (e : Event) : bool := true.

(** No event of the list is of the given kind. *)
Definition none (kind : Event -> bool) (es : list Event) : bool :=
  forallb (fun e => negb (kind e)) es.

(** A page whose socket was closed by the cleanup. *)
Definition torn_down : Home :=
  mkHome (state busy) (Some (mkSocket CLOSING [])) (requests busy)
         (awaiting busy) (console busy).

(** * Properties *)

(** ** Unfolding handlers *)

Ltac unfold_handler :=
  unfold handle, form_submit, stop_click, textarea_change, settle,
    handleSubmit, handleSubmit_resume, handleStop, onmessage, onopen,
    onclose, onerror, setLogs_with, setTask, setLogs, setScreenshot,
    setResult, setError, setIsLoading, fetch, send, open_socket,
    socket_becomes, log_console, or_throw, throw, unmount, update, read,
    run_task, bind, ret, on_state in *.

Lemma phase_running (s : State) : phase s = Running <-> isLoading s = true.
Proof.
  unfold phase. destruct (isLoading s).
  - tauto.
  - split; [ | discriminate ].
    destruct (error s); try discriminate.
    destruct (result s) as [ | | | | [ | ] | | ]; discriminate.
Qed.

Lemma phase_not_running (s : State) : phase s <> Running <-> isLoading s = false.
Proof.
  rewrite phase_running. destruct (isLoading s); split; congruence.
Qed.

(** The example pages are pages the component reaches. *)
Lemma examples_are_reached :
  run [Mount; WsOpen] initial = Some connected /\
  run [TaskEdited "task X"; FormSubmitted; FetchSettled accepted_reply] connected
    = Some submitted /\
  run [StepEvent step1] submitted = Some busy /\
  run [StepEvent step_loading; TerminalEvent (Wire.ErrorData "timeout")] busy
    = Some failed.
Proof.
  repeat split.
Qed.

Lemma onmessage_step (sd : Wire.StepData) (h : Home) :
  onmessage (Some (Wire.step_json sd)) h = (Returns tt, on_state (stepped sd) h).
Proof.
  destruct sd as [n t acts [payload | ]]; unfold Wire.step_json, stepped, log_line, data_url;
    unfold_handler; simpl.
  - destruct (String.eqb payload ""); reflexivity.
  - reflexivity.
Qed.

Lemma onmessage_terminal (td : Wire.TerminalData) (h : Home) :
  onmessage (Some (Wire.terminal_json td)) h = (Returns tt, on_state (ended td) h).
Proof.
  destruct td; reflexivity.
Qed.

Lemma run_app (es1 es2 : list Event) (h : Home) :
  run (es1 ++ es2) h =
  match run es1 h with
  | Some h' => run es2 h'
  | None => None
  end.
Proof.
  revert h. induction es1 as [ | e es1 IH]; intro h; simpl.
  - reflexivity.
  - destruct (after (handle e) h); [ apply IH | reflexivity ].
Qed.

(** [ws.onmessage] touches the state cells only, and never the task. *)
Lemma onmessage_frame (d : MessageData) (h h' : Home) (c : Completion unit) :
  onmessage d h = (c, h') ->
  wsRef h' = wsRef h /\ requests h' = requests h /\
  awaiting h' = awaiting h /\ console h' = console h /\
  task (state h') = task (state h).
Proof.
  intro H. unfold onmessage in H.
  destruct d as [v | ]; unfold_handler; simpl in H;
    [ | injection H as _ <-; auto 6 ].
  destruct (has "status" v) as [[ | ] | ]; simpl in H.
  - destruct (is_str (get v "status") "done"); simpl in H;
      [ destruct (valid_child (get v "result")); simpl in H
      | destruct (is_str (get v "status") "error"); simpl in H;
        [ destruct (valid_child (get v "message")); simpl in H | ] ];
      injection H as _ <-; simpl; auto 6.
  - destruct (step_line v); simpl in H;
      [ | injection H as _ <-; auto 6 ].
    destruct (ToBoolean (get v "screenshot")); simpl in H;
      [ destruct (ToString (get v "screenshot")); simpl in H | ];
      injection H as _ <-; simpl; auto 6.
  - injection H as _ <-; auto 6.
Qed.

(** Channel and control events leave the submission calls as they are. *)
Lemma channel_event_frame (e : Event) (h h' : Home) :
  channel_event e = true ->
  after (handle e) h = Some h' ->
  requests h' = requests h /\ awaiting h' = awaiting h.
Proof.
  intros He Hrun. destruct e; try discriminate He; unfold after in Hrun.
  - (* WsOpen *)
    unfold_handler. simpl in Hrun. injection Hrun as <-. auto.
  - (* WsMessage *)
    simpl in Hrun. destruct (onmessage d h) as [c h1] eqn:E.
    apply onmessage_frame in E.
    destruct c; try discriminate Hrun; injection Hrun as <-; tauto.
  - unfold_handler. simpl in Hrun. injection Hrun as <-. auto.
  - unfold_handler. simpl in Hrun. injection Hrun as <-. auto.
  - unfold_handler. simpl in Hrun.
    destruct (isLoading (state h)); injection Hrun as <-; auto.
  - unfold_handler. simpl in Hrun.
    destruct (isLoading (state h)); simpl in Hrun;
      [ destruct (is_open (wsRef h)) | ]; injection Hrun as <-; auto.
Qed.

Lemma run_channel_frame (es : list Event) (h h' : Home) :
  forallb channel_event es = true ->
  run es h = Some h' ->
  requests h' = requests h /\ awaiting h' = awaiting h.
Proof.
  revert h. induction es as [ | e es IH]; simpl; intros h Hes Hrun.
  - injection Hrun as <-. auto.
  - apply andb_prop in Hes as [He Hes].
    destruct (after (handle e) h) as [h1 | ] eqn:E; [ | discriminate ].
    destruct (channel_event_frame e h h1 He E) as [R A].
    destruct (IH h1 Hes Hrun) as [R' A']. split; congruence.
Qed.

Lemma handleSubmit_rejects (h : Home) :
  isLoading (state h) = true \/ task (state h) = "" ->
  handleSubmit h = (Returns tt, h).
Proof.
  intro G. unfold_handler. simpl.
  destruct G as [G | G]; rewrite G.
  - rewrite orb_true_r. reflexivity.
  - reflexivity.
Qed.

Lemma handleSubmit_accepts (h : Home) :
  isLoading (state h) = false -> task (state h) <> "" ->
  handleSubmit h =
  (Returns tt,
   mkHome (mkState (task (state h)) [] None (Str "") Null true)
          (wsRef h) (requests h ++ [run_task (task (state h))])
          (S (awaiting h)) (console h)).
Proof.
  intros L T. apply String.eqb_neq in T.
  unfold_handler. simpl. rewrite L, T. reflexivity.
Qed.

(** ** After a terminal event *)

(** C1, as stated, fails: after the Done message of a session, a late step
    is not ignored.  From the connected page: submit, one step, Done
    "OK", then a second step carrying a frame.  The log grows from one line
    to two and the frame appears. *)
Lemma late_step_after_done_is_applied :
  exists h1 h2,
    run [FormSubmitted; StepEvent step1; TerminalEvent (Wire.DoneData "OK")] connected
      = Some h1 /\
    phase_of h1 = Done /\
    run [StepEvent step2] h1 = Some h2 /\
    logs (state h1) = ["Step 1: searching"] /\
    logs (state h2) = ["Step 1: searching"; "Step 2: reading"] /\
    length (logs (state h2)) <> length (logs (state h1)) /\
    screenshot (state h1) = None /\
    screenshot (state h2) = Some "data:image/png;base64,iVBORw0KGgo=".
Proof.
  eexists. eexists.
  split; [ vm_compute; reflexivity | ].
  split; [ reflexivity | ].
  split; [ vm_compute; reflexivity | ].
  repeat split; simpl; discriminate.
Qed.

(** C1, amended.  [ws.onmessage] has no test of the running flag: a step
    that arrives after a terminal event is applied as any other.  It adds
    its line to the log and, with a payload that is not empty, replaces the
    frame; the task, the result, the error, the running flag and so the
    phase stay as the terminal event left them. *)
Theorem step_after_terminal_is_applied
    (h : Home) (td : Wire.TerminalData) (sd : Wire.StepData) :
  exists h1 h2,
    run [TerminalEvent td] h = Some h1 /\
    run [StepEvent sd] h1 = Some h2 /\
    phase_of h1 <> Running /\
    logs (state h2) = (logs (state h1) ++ [log_line sd])%list /\
    screenshot (state h2) =
      match Wire.screenshot sd with
      | Some payload =>
          if String.eqb payload "" then screenshot (state h1)
          else Some (data_url payload)
      | None => screenshot (state h1)
      end /\
    task (state h2) = task (state h1) /\
    result (state h2) = result (state h1) /\
    error (state h2) = error (state h1) /\
    isLoading (state h2) = isLoading (state h1) /\
    phase_of h2 = phase_of h1.
Proof.
  exists (on_state (ended td) h), (on_state (stepped sd) (on_state (ended td) h)).
  split.
  { simpl. unfold after. rewrite onmessage_terminal. reflexivity. }
  split.
  { simpl. unfold after. rewrite onmessage_step. reflexivity. }
  split.
  { apply phase_not_running. destruct td; reflexivity. }
  repeat split.
Qed.

(** ** Messages of neither shape *)

(** C2, as stated, fails: the message [{}] has neither [status] nor [step];
    it is not rejected and nothing is written to the console, it is logged
    as a step with both fields printed as "undefined". *)
Lemma empty_object_is_applied_as_step :
  exists h',
    onmessage (Some (Obj [])) connected = (Returns tt, h') /\
    logs (state connected) = [] /\
    logs (state h') = ["Step undefined: undefined"] /\
    console h' = console connected.
Proof.
  eexists. split; [ vm_compute; reflexivity | ]. repeat split.
Qed.

(** C2, amended.  The page has no decode step and logs no decode failure.
    A message that is not JSON, or parses to a primitive, or carries a
    [status] other than "done" and "error", changes nothing at all: the
    first two make the handler throw, the third returns.  A message that
    parses to an object or array without [status] is taken for a step
    whatever else it lacks.  When its [step] and [thought] have a text, its
    line joins the log, and the result, the error and the running flag are
    unchanged; when one of them has none, the log updater throws and the
    page is taken down. *)
Theorem message_of_neither_shape (d : MessageData) (h : Home) :
  (dropped d = true -> snd (onmessage d h) = h) /\
  (forall v line,
      d = Some v -> has "status" v = Some false -> step_line v = Some line ->
      exists c h',
        onmessage d h = (c, h') /\ c <> Unmounts /\
        logs (state h') = (logs (state h) ++ [line])%list /\
        result (state h') = result (state h) /\
        error (state h') = error (state h) /\
        isLoading (state h') = isLoading (state h) /\
        console h' = console h) /\
  (forall v,
      d = Some v -> has "status" v = Some false -> step_line v = None ->
      after (onmessage d) h = None) /\
  (d = None -> onmessage d h = (Throws SyntaxError, h)) /\
  (forall v,
      d = Some v -> has "status" v = None ->
      onmessage d h = (Throws TypeError, h)) /\
  (forall v,
      d = Some v -> has "status" v = Some true ->
      is_str (get v "status") "done" = false ->
      is_str (get v "status") "error" = false ->
      onmessage d h = (Returns tt, h)).
Proof.
  split; [ | split; [ | split; [ | split; [ | split ] ] ] ].
  - unfold dropped, onmessage. destruct d as [v | ]; [ | reflexivity ].
    unfold_handler. destruct (has "status" v) as [[ | ] | ]; simpl;
      [ | discriminate | reflexivity ].
    destruct (is_str (get v "status") "done"); [ discriminate | ].
    destruct (is_str (get v "status") "error"); [ discriminate | ].
    destruct h as [[? ? ? ? ? ?] ? ? ? ?]. reflexivity.
  - intros v line -> S L. unfold onmessage. unfold_handler.
    rewrite S. simpl. rewrite L. simpl.
    destruct (ToBoolean (get v "screenshot")); simpl;
      [ destruct (ToString (get v "screenshot")); simpl | ];
      eexists; eexists; (split; [ reflexivity | ]);
      (split; [ discriminate | ]); simpl; auto.
  - intros v -> S L. unfold after, onmessage. unfold_handler.
    rewrite S. simpl. rewrite L. reflexivity.
  - intros ->. reflexivity.
  - intros v -> S. unfold onmessage. unfold_handler. rewrite S. reflexivity.
  - intros v -> S D E. unfold onmessage. unfold_handler.
    rewrite S. simpl. rewrite D, E. reflexivity.
Qed.

Lemma message_of_neither_shape_witness :
  snd (onmessage (Some (Obj [("status", Str "paused")])) connected) = connected /\
  (exists c h',
      onmessage (Some (Obj [("thought", Str "lost")])) connected = (c, h') /\
      logs (state h') = ["Step undefined: lost"]) /\
  after (onmessage (Some (Obj [("step", Obj [("toString", Null)])]))) connected
    = None.
Proof.
  split; [ | split ].
  - apply (proj1 (message_of_neither_shape
                    (Some (Obj [("status", Str "paused")])) connected)).
    reflexivity.
  - destruct (proj1 (proj2 (message_of_neither_shape
                              (Some (Obj [("thought", Str "lost")])) connected))
                _ "Step undefined: lost" eq_refl eq_refl eq_refl)
      as (c & h' & E & _ & L & _).
    exists c, h'. split; [ exact E | exact L ].
  - apply (proj1 (proj2 (proj2 (message_of_neither_shape
                                  (Some (Obj [("step", Obj [("toString", Null)])]))
                                  connected)))
             (Obj [("step", Obj [("toString", Null)])])); reflexivity.
Defined.

(** ** Submission *)

(** C3.  [handleSubmit] does nothing, and issues no request, while the
    page is running or when the task text is empty.  In any other phase
    and with a task text it is accepted: the log is emptied, the frame, the
    result and the error are cleared, the page is running, and the one
    request for the task is issued. *)
Theorem submit_guard (h : Home) :
  (phase_of h = Running \/ task (state h) = "" ->
   handleSubmit h = (Returns tt, h)) /\
  (phase_of h <> Running -> task (state h) <> "" ->
   exists h',
     handleSubmit h = (Returns tt, h') /\
     logs (state h') = [] /\
     screenshot (state h') = None /\
     result (state h') = Str "" /\
     error (state h') = Null /\
     phase_of h' = Running /\
     task (state h') = task (state h) /\
     requests h' = (requests h ++ [run_task (task (state h))])%list /\
     wsRef h' = wsRef h).
Proof.
  split.
  - intros [R | T]; apply handleSubmit_rejects.
    + left. apply phase_running. exact R.
    + right. exact T.
  - intros R T. apply phase_not_running in R.
    eexists. split; [ apply handleSubmit_accepts; assumption | ].
    repeat split.
Qed.

Lemma submit_guard_witness :
  handleSubmit busy = (Returns tt, busy) /\
  exists h',
    handleSubmit failed = (Returns tt, h') /\
    state h' = mkState "task X" [] None (Str "") Null true /\
    requests h' = [run_task "task X"; run_task "task X"].
Proof.
  split.
  - apply (proj1 (submit_guard busy)). left. reflexivity.
  - destruct (proj2 (submit_guard failed)) as (h' & E & _).
    + discriminate.
    + discriminate.
    + exists h'. split; [ exact E | ].
      vm_compute in E. injection E as <-. split; reflexivity.
Defined.

Lemma resume_failure (o : FetchOutcome) (message : string) (h : Home) :
  request_fails o message ->
  handleSubmit_resume o h =
  (Returns tt,
   on_state (fun s => mkState (task s) (logs s) (screenshot s) (result s)
                              (Str message) false) h).
Proof.
  intros [m | j]; reflexivity.
Qed.

(** C4.  An accepted submission issues exactly one request.  Whatever the
    channel and the controls deliver while it is awaited, when it fails
    the page ends not running, in the error phase, with the failure message
    as its error; the request list holds that one new call and nothing is
    awaited any more: no retry.  The run up to the failure is one that
    leaves the page mounted. *)
Theorem failed_submission_ends_errored
    (h h1 : Home) (es : list Event) (o : FetchOutcome) (message : string) :
  phase_of h <> Running ->
  task (state h) <> "" ->
  forallb channel_event es = true ->
  request_fails o message ->
  run (FormSubmitted :: es) h = Some h1 ->
  exists h2,
    run (FormSubmitted :: es ++ [FetchSettled o]) h = Some h2 /\
    phase_of h2 = Errored /\
    isLoading (state h2) = false /\
    error (state h2) = Str message /\
    requests h2 = (requests h ++ [run_task (task (state h))])%list /\
    awaiting h2 = awaiting h.
Proof.
  intros R T Hes F Hrun. apply phase_not_running in R.
  change (FormSubmitted :: es ++ [FetchSettled o])%list
    with ((FormSubmitted :: es) ++ [FetchSettled o])%list.
  rewrite run_app, Hrun.
  simpl in Hrun. unfold after, form_submit in Hrun.
  rewrite (handleSubmit_accepts h R T) in Hrun.
  destruct (run_channel_frame _ _ _ Hes Hrun) as [Rq Aw]. simpl in Rq, Aw.
  simpl. unfold after, settle. rewrite Aw.
  rewrite (resume_failure o message _ F).
  eexists. split; [ reflexivity | ].
  simpl. repeat split; assumption.
Qed.

Lemma failed_submission_ends_errored_witness :
  exists h2,
    run [FormSubmitted; StepEvent step1; StopClicked;
         FetchSettled (Response false (inl "Unexpected token"))] connected
      = Some h2 /\
    phase_of h2 = Errored /\
    error (state h2) = Str "Failed to start task" /\
    requests h2 = [run_task default_task].
Proof.
  destruct (failed_submission_ends_errored
              connected
              (mkHome (mkState default_task ["Step 1: searching"] None (Str "") Null true)
                      (Some (mkSocket OPEN ["stop"])) [run_task default_task] 1
                      [console_log [Text "WebSocket connected"]])
              [StepEvent step1; StopClicked]
              (Response false (inl "Unexpected token"))
              "Failed to start task")
    as (h2 & E & P & _ & Er & Rq & _).
  - discriminate.
  - discriminate.
  - reflexivity.
  - constructor.
  - vm_compute. reflexivity.
  - exists h2. repeat split; assumption.
Defined.

(** ** Cancellation *)

(** [handleStop] tests the socket and nothing else: without an open socket
    it does nothing, with one it writes the token. *)
Lemma handleStop_cases (h : Home) :
  (is_open (wsRef h) = false /\ handleStop h = (Returns tt, h)) \/
  (exists ws,
      wsRef h = Some ws /\ readyState ws = OPEN /\
      handleStop h =
      (Returns tt,
       mkHome (state h) (Some (mkSocket OPEN (sent ws ++ ["stop"])))
              (requests h) (awaiting h) (console h))).
Proof.
  unfold handleStop, send, ret.
  destruct (wsRef h) as [[r frames] | ] eqn:W; [ destruct r | ]; simpl;
    try (left; split; reflexivity).
  right. exists (mkSocket OPEN frames). repeat split.
Qed.

(** C5.  In every phase other than Running a cancel produces no transport
    call.  The Stop button, the one caller of [handleStop], is disabled
    then: a click on it, and any number of clicks in a row, leaves the page
    as it is, and with it the frames written to the socket and the requests
    made. *)
Theorem cancel_when_not_running_sends_nothing (h : Home) (k : nat) :
  phase_of h <> Running ->
  stop_click h = (Returns tt, h) /\
  run (repeat StopClicked k) h = Some h /\
  sent_frames (snd (stop_click h)) = sent_frames h /\
  requests (snd (stop_click h)) = requests h.
Proof.
  intro R. apply phase_not_running in R.
  assert (stop_click h = (Returns tt, h)) as E.
  { unfold_handler. rewrite R. reflexivity. }
  split; [ exact E | ].
  split; [ | rewrite E; split; reflexivity ].
  induction k as [ | k IH]; simpl.
  - reflexivity.
  - unfold after. rewrite E. exact IH.
Qed.

Lemma cancel_when_not_running_sends_nothing_witness :
  stop_click connected = (Returns tt, connected) /\
  run [StopClicked; StopClicked] failed = Some failed /\
  sent_frames (snd (stop_click failed)) = [].
Proof.
  destruct (cancel_when_not_running_sends_nothing connected 0) as (E & _);
    [ discriminate | ].
  destruct (cancel_when_not_running_sends_nothing failed 2) as (_ & R & S & _);
    [ discriminate | ].
  split; [ exact E | split; [ exact R | exact S ] ].
Defined.

(** C9.  [handleStop] changes no state cell in any phase: the task, the
    log, the frame, the result, the error and the running flag are as
    before.  Its only possible effect is the write to the channel: the page
    after it is the page before it, or that page with the token added to
    the frames written to its open socket. *)
Theorem handleStop_keeps_session (h : Home) :
  exists h',
    handleStop h = (Returns tt, h') /\
    task (state h') = task (state h) /\
    logs (state h') = logs (state h) /\
    screenshot (state h') = screenshot (state h) /\
    result (state h') = result (state h) /\
    error (state h') = error (state h) /\
    isLoading (state h') = isLoading (state h) /\
    (h' = h \/
     exists ws,
       wsRef h = Some ws /\ readyState ws = OPEN /\
       h' = mkHome (state h) (Some (mkSocket OPEN (sent ws ++ ["stop"])))
                   (requests h) (awaiting h) (console h)).
Proof.
  destruct (handleStop_cases h) as [[_ E] | (ws & W & O & E)].
  - exists h. split; [ exact E | ]. repeat split. left. reflexivity.
  - eexists. split; [ exact E | ]. simpl. repeat split.
    right. exists ws. repeat split; assumption.
Qed.

(** ** Steps *)

Lemma run_steps (sds : list Wire.StepData) (h : Home) :
  exists h',
    run (map StepEvent sds) h = Some h' /\
    logs (state h') = (logs (state h) ++ map log_line sds)%list /\
    isLoading (state h') = isLoading (state h).
Proof.
  revert h. induction sds as [ | sd sds IH]; intro h.
  - exists h. simpl. rewrite app_nil_r. auto.
  - destruct (IH (on_state (stepped sd) h)) as (h' & E & L & B).
    exists h'. simpl. unfold after. rewrite onmessage_step.
    split; [ exact E | ].
    simpl in L, B. rewrite <- app_assoc in L. auto.
Qed.

(** C6.  Steps delivered to a running page with an empty log leave a log
    of as many lines, in the order of arrival: the line at each position
    is "Step {step}: {thought}" of the step at that position.  The page is
    still running. *)
Theorem steps_are_logged_in_order (h : Home) (sds : list Wire.StepData) :
  phase_of h = Running ->
  logs (state h) = [] ->
  exists h',
    run (map StepEvent sds) h = Some h' /\
    length (logs (state h')) = length sds /\
    logs (state h') = map log_line sds /\
    (forall i sd, nth_error sds i = Some sd ->
                  nth_error (logs (state h')) i =
                  Some ("Step " ++ number_toString (Wire.step sd) ++ ": "
                        ++ Wire.thought sd)) /\
    phase_of h' = Running.
Proof.
  intros R L0. destruct (run_steps sds h) as (h' & E & L & B).
  rewrite L0 in L. simpl in L.
  exists h'. split; [ exact E | ].
  split; [ rewrite L; apply length_map | ].
  split; [ exact L | ].
  split.
  - intros i sd N. rewrite L. apply (map_nth_error log_line _ _ N).
  - apply phase_running. rewrite B. apply phase_running. exact R.
Qed.

Lemma steps_are_logged_in_order_witness :
  exists h',
    run [StepEvent step1; StepEvent step2; StepEvent step1] submitted = Some h' /\
    logs (state h') = ["Step 1: searching"; "Step 2: reading"; "Step 1: searching"].
Proof.
  destruct (steps_are_logged_in_order submitted [step1; step2; step1]
              eq_refl eq_refl)
    as (h' & E & _ & L & _).
  exists h'. split; [ exact E | exact L ].
Defined.

(** ** Terminal events *)

(** C7.  A terminal event delivered twice leaves the page as it is after
    the first delivery: the same phase, result and error. *)
Theorem terminal_event_is_idempotent (h : Home) (td : Wire.TerminalData) :
  exists h1 h2,
    run [TerminalEvent td] h = Some h1 /\
    run [TerminalEvent td; TerminalEvent td] h = Some h2 /\
    phase_of h2 = phase_of h1 /\
    result (state h2) = result (state h1) /\
    error (state h2) = error (state h1) /\
    h2 = h1.
Proof.
  exists (on_state (ended td) h), (on_state (ended td) h).
  split.
  { simpl. unfold after. rewrite onmessage_terminal. reflexivity. }
  split.
  { simpl. unfold after. rewrite !onmessage_terminal. simpl.
    destruct td; reflexivity. }
  repeat split.
Qed.

(** C10.  A Done event leaves the recorded error, an Errored event leaves
    the recorded result; after one of each, in either order and with no
    submission between them, the page holds both the result text and the
    error message. *)
Theorem terminal_outcomes_coexist (h : Home) (r m : string) :
  (exists h1,
      run [TerminalEvent (Wire.DoneData r)] h = Some h1 /\
      error (state h1) = error (state h)) /\
  (exists h1,
      run [TerminalEvent (Wire.ErrorData m)] h = Some h1 /\
      result (state h1) = result (state h)) /\
  (exists h2,
      run [TerminalEvent (Wire.DoneData r); TerminalEvent (Wire.ErrorData m)] h
        = Some h2 /\
      result (state h2) = Str r /\ error (state h2) = Str m) /\
  (exists h2,
      run [TerminalEvent (Wire.ErrorData m); TerminalEvent (Wire.DoneData r)] h
        = Some h2 /\
      result (state h2) = Str r /\ error (state h2) = Str m).
Proof.
  repeat split; eexists; (split; [ reflexivity | ]); repeat split.
Qed.

(** ** The frame *)

(** C8, as stated, fails on a payload that is empty: the field is there,
    but [if (stepData.screenshot)] reads it as absent and the earlier
    frame stays. *)
Lemma empty_payload_keeps_the_frame :
  exists h1 h2,
    run [StepEvent step2] busy = Some h1 /\
    run [StepEvent blank_step] h1 = Some h2 /\
    Wire.screenshot blank_step = Some "" /\
    screenshot (state h1) = Some "data:image/png;base64,iVBORw0KGgo=" /\
    screenshot (state h2) = Some "data:image/png;base64,iVBORw0KGgo=" /\
    screenshot (state h2) <> Some (data_url "").
Proof.
  eexists. eexists.
  split; [ vm_compute; reflexivity | ].
  split; [ vm_compute; reflexivity | ].
  repeat split. simpl. discriminate.
Qed.

(** C8, amended.  The frame cell holds one image.  A step with a payload
    that is not empty puts that payload's image there in place of the
    earlier one; a step with no payload, or an empty one, leaves the cell;
    a terminal event of either kind leaves it too. *)
Theorem frame_is_overwritten (h : Home) :
  (forall sd payload,
      Wire.screenshot sd = Some payload -> payload <> "" ->
      exists h',
        run [StepEvent sd] h = Some h' /\
        screenshot (state h') = Some ("data:image/png;base64," ++ payload)) /\
  (forall sd,
      Wire.screenshot sd = None \/ Wire.screenshot sd = Some "" ->
      exists h',
        run [StepEvent sd] h = Some h' /\
        screenshot (state h') = screenshot (state h)) /\
  (forall td,
      exists h',
        run [TerminalEvent td] h = Some h' /\
        screenshot (state h') = screenshot (state h)).
Proof.
  split; [ | split ].
  - intros sd payload P N. apply String.eqb_neq in N.
    exists (on_state (stepped sd) h). simpl. unfold after.
    rewrite onmessage_step. split; [ reflexivity | ].
    simpl. rewrite P, N. reflexivity.
  - intros sd P.
    exists (on_state (stepped sd) h). simpl. unfold after.
    rewrite onmessage_step. split; [ reflexivity | ].
    simpl. destruct P as [P | P]; rewrite P; reflexivity.
  - intro td.
    exists (on_state (ended td) h). simpl. unfold after.
    rewrite onmessage_terminal. split; [ reflexivity | ].
    destruct td; reflexivity.
Qed.

Lemma frame_is_overwritten_witness :
  (exists h',
      run [StepEvent step2] failed = Some h' /\
      screenshot (state h') = Some "data:image/png;base64,iVBORw0KGgo=") /\
  (exists h',
      run [StepEvent step1] failed = Some h' /\
      screenshot (state h') = Some "data:image/png;base64,AAAA").
Proof.
  split.
  - apply (proj1 (frame_is_overwritten failed) step2 "iVBORw0KGgo=" eq_refl).
    discriminate.
  - apply (proj1 (proj2 (frame_is_overwritten failed)) step1).
    left. reflexivity.
Defined.

(** * Further properties of the page *)

(** ** One event at a time *)

Lemma step_line_shape (v : value) (line : string) :
  step_line v = Some line -> exists rest, line = "Step " ++ rest.
Proof.
  unfold step_line.
  destruct (ToString (get v "step")) as [n | ]; [ | discriminate ].
  destruct (ToString (get v "thought")) as [t | ]; [ | discriminate ].
  intro E. injection E as <-. eexists. reflexivity.
Qed.

Lemma onmessage_moves (d : MessageData) (h h' : Home) (c : Completion unit) :
  onmessage d h = (c, h') ->
  exists s',
    h' = mkHome s' (wsRef h) (requests h) (awaiting h) (console h) /\
    onmessage_effect (state h) s'.
Proof.
  destruct h as [s ws rq aw co]. simpl.
  intro H. unfold onmessage in H.
  destruct d as [v | ]; unfold_handler; simpl in H;
    [ | injection H as _ <-; eexists; split; [ reflexivity | constructor ] ].
  destruct (has "status" v) as [[ | ] | ]; simpl in H.
  - destruct (is_str (get v "status") "done"); simpl in H;
      [ destruct (valid_child (get v "result")); simpl in H
      | destruct (is_str (get v "status") "error"); simpl in H;
        [ destruct (valid_child (get v "message")); simpl in H | ] ];
      injection H as _ <-; eexists; (split; [ reflexivity | constructor ]).
  - destruct (step_line v) as [line | ] eqn:L; simpl in H;
      [ | injection H as _ <-; eexists; split; [ reflexivity | constructor ] ].
    destruct (step_line_shape v line L) as [rest ->].
    destruct (ToBoolean (get v "screenshot")); simpl in H;
      [ destruct (ToString (get v "screenshot")) as [payload | ]; simpl in H | ];
      injection H as _ <-; eexists; (split; [ reflexivity | ]).
    + apply effect_line_frame.
    + apply effect_line.
    + apply effect_line.
  - injection H as _ <-. eexists. split; [ reflexivity | constructor ].
Qed.

Lemma caught_cases (o : FetchOutcome) :
  (exists data, o = Response true (inr data)) \/ (exists message, caught o = Some message).
Proof.
  destruct o as [m | [ | ] [m | data]]; simpl; eauto.
Qed.

(** Every event that leaves the page mounted is one of the moves. *)
Lemma handle_moves (e : Event) (h h' : Home) :
  after (handle e) h = Some h' -> moves h e h'.
Proof.
  unfold after. intro H. destruct e; simpl in H.
  - injection H as <-. apply moves_mount.
  - unfold_handler. simpl in H. injection H as <-. apply moves_open.
  - destruct (onmessage d h) as [c h1] eqn:E.
    destruct (onmessage_moves d h h1 c E) as (s' & -> & Eff).
    destruct c; try discriminate H; injection H as <-;
      apply moves_message; exact Eff.
  - unfold_handler. simpl in H. injection H as <-. apply moves_error.
  - unfold_handler. simpl in H. injection H as <-. apply moves_close.
  - unfold_handler. simpl in H.
    destruct (isLoading (state h)) eqn:L; injection H as <-.
    + apply moves_edit_ignored. exact L.
    + rewrite L. apply moves_edit. exact L.
  - unfold form_submit in H.
    destruct (isLoading (state h)) eqn:L.
    + rewrite handleSubmit_rejects in H by (left; exact L).
      injection H as <-. apply moves_submit_ignored. left. exact L.
    + destruct (String.eqb (task (state h)) "") eqn:T.
      * apply String.eqb_eq in T.
        rewrite handleSubmit_rejects in H by (right; exact T).
        injection H as <-. apply moves_submit_ignored. right. exact T.
      * apply String.eqb_neq in T.
        rewrite (handleSubmit_accepts h L T) in H.
        injection H as <-. apply moves_submit; assumption.
  - unfold settle in H. destruct (awaiting h) as [ | n] eqn:A.
    + injection H as <-. apply moves_settle_none. exact A.
    + destruct (caught_cases o) as [[data ->] | [message C]].
      * simpl in H. unfold_handler. simpl in H. injection H as <-.
        apply moves_settle_ok. exact A.
      * assert (handleSubmit_resume o
                  (mkHome (state h) (wsRef h) (requests h) n (console h))
                = (Returns tt,
                   mkHome (mkState (task (state h)) (logs (state h))
                                   (screenshot (state h)) (result (state h))
                                   (Str message) false)
                          (wsRef h) (requests h) n (console h))) as R.
        { destruct o as [m | [ | ] [m | data]]; simpl in C;
            try discriminate C; injection C as <-; reflexivity. }
        rewrite R in H. injection H as <-.
        apply (moves_settle_caught h n o message A C).
  - unfold stop_click, handleStop, send in H. unfold_handler. simpl in H.
    destruct (isLoading (state h)) eqn:L; simpl in H.
    + destruct (is_open (wsRef h)) eqn:O.
      * injection H as <-.
        destruct (wsRef h) as [[r frames] | ] eqn:W; [ | discriminate O ].
        destruct r; try discriminate O.
        apply (moves_stop h (mkSocket OPEN frames)); auto.
      * injection H as <-. apply moves_stop_ignored. right. exact O.
    + injection H as <-. apply moves_stop_ignored. left. exact L.
Qed.

Lemma handle_moves_total_submit (h : Home) :
  after (handle FormSubmitted) h = None -> False.
Proof.
  unfold after. simpl. unfold form_submit.
  destruct (isLoading (state h)) eqn:L.
  - rewrite handleSubmit_rejects by (left; exact L). discriminate.
  - destruct (String.eqb (task (state h)) "") eqn:T.
    + apply String.eqb_eq in T.
      rewrite handleSubmit_rejects by (right; exact T). discriminate.
    + apply String.eqb_neq in T.
      rewrite (handleSubmit_accepts h L T). discriminate.
Qed.

(** An invariant kept by each allowed event is kept by a run of them. *)
Lemma run_keeps (allowed : Event -> bool) (Inv : Home -> Prop) :
  (forall e h h', allowed e = true -> Inv h -> moves h e h' -> Inv h') ->
  forall es h h',
    forallb allowed es = true -> Inv h -> run es h = Some h' -> Inv h'.
Proof.
  intro Step. induction es as [ | e es IH]; simpl; intros h h' A I R.
  - injection R as <-. exact I.
  - apply andb_prop in A as [Ae Aes].
    destruct (after (handle e) h) as [h1 | ] eqn:E; [ | discriminate R ].
    apply (IH h1 h' Aes); [ | exact R ].
    apply (Step e h h1 Ae I). apply handle_moves. exact E.
Qed.

Lemma forallb_any (es : list Event) : forallb any_event es = true.
Proof.
  induction es; simpl; auto.
Qed.

Lemma step_prefix (rest : string) : String.prefix "Step " ("Step " ++ rest) = true.
Proof.
  simpl. destruct rest; reflexivity.
Qed.

Lemma forallb_snoc {A} (p : A -> bool) (l : list A) (x : A) :
  forallb p (l ++ [x]) = (forallb p l && p x)%bool.
Proof.
  rewrite forallb_app. simpl. rewrite andb_true_r. reflexivity.
Qed.

(** ** What only one control or one event can do *)

(** X1.  Between submissions the log only grows: over any run without a
    form submission that leaves the page mounted, the log at the end is the
    log at the start followed by added lines, each beginning with
    "Step ". *)
Theorem log_is_append_only (es : list Event) (h h' : Home) :
  none is_submit es = true ->
  run es h = Some h' ->
  exists added,
    logs (state h') = (logs (state h) ++ added)%list /\
    forallb (String.prefix "Step ") added = true.
Proof.
  intros N R.
  apply (run_keeps (fun e => negb (is_submit e))
           (fun x => exists added,
                logs (state x) = (logs (state h) ++ added)%list /\
                forallb (String.prefix "Step ") added = true)
           ) with (es := es) (h := h); try assumption.
  - intros e h1 h2 A (added & E & F) M.
    inversion M; subst; simpl in *; try discriminate A;
      try (exists added; split; assumption).
    match goal with Eff : onmessage_effect _ _ |- _ => inversion Eff; subst; simpl end;
      try (exists added; split; assumption);
      (exists (added ++ [("Step " ++ line)%string])%list; split;
       [ rewrite E, app_assoc; reflexivity
       | rewrite forallb_snoc, F, step_prefix; reflexivity ]).
  - exists []. rewrite app_nil_r. split; reflexivity.
Qed.

Lemma log_is_append_only_witness :
  exists added,
    logs (state failed) = (logs (state submitted) ++ added)%list /\
    forallb (String.prefix "Step ") added = true.
Proof.
  apply (log_is_append_only
           [StepEvent step1; StepEvent step_loading;
            TerminalEvent (Wire.ErrorData "timeout")] submitted failed);
    reflexivity.
Defined.

(** X2.  Every line the page ever shows in its log begins with "Step ":
    this holds after any run of events from the first render. *)
Theorem log_lines_are_step_lines (es : list Event) (h' : Home) :
  run es initial = Some h' ->
  forallb (String.prefix "Step ") (logs (state h')) = true.
Proof.
  intro R.
  apply (run_keeps any_event
           (fun x => forallb (String.prefix "Step ") (logs (state x)) = true))
    with (es := es) (h := initial); try assumption.
  - intros e h1 h2 _ F M.
    inversion M; subst; simpl in *; try assumption; try reflexivity.
    match goal with Eff : onmessage_effect _ _ |- _ => inversion Eff; subst; cbn [logs] end;
      try assumption;
      rewrite forallb_snoc, F, step_prefix; reflexivity.
  - apply forallb_any.
  - reflexivity.
Qed.

Lemma log_lines_are_step_lines_witness :
  forallb (String.prefix "Step ") (logs (state failed)) = true.
Proof.
  apply (log_lines_are_step_lines
           [Mount; WsOpen; TaskEdited "task X"; FormSubmitted;
            FetchSettled accepted_reply; StepEvent step1; StepEvent step_loading;
            TerminalEvent (Wire.ErrorData "timeout")] failed).
  reflexivity.
Defined.

(** X3.  Only a form submission starts a session: over any run without
    one, a page that is not running is not running at the end. *)
Theorem only_submit_starts_running (es : list Event) (h h' : Home) :
  none is_submit es = true ->
  phase_of h <> Running ->
  run es h = Some h' ->
  phase_of h' <> Running.
Proof.
  intros N P R. apply phase_not_running. apply phase_not_running in P.
  apply (run_keeps (fun e => negb (is_submit e))
           (fun x => isLoading (state x) = false))
    with (es := es) (h := h); try assumption.
  intros e h1 h2 A L M.
  inversion M; subst; simpl in *; try discriminate A; try assumption;
    try reflexivity.
  match goal with Eff : onmessage_effect _ _ |- _ => inversion Eff; subst; simpl end;
    try assumption; reflexivity.
Qed.

Lemma only_submit_starts_running_witness :
  exists h',
    run [StepEvent step1; StopClicked; TaskEdited "other";
         TerminalEvent (Wire.DoneData "OK")] failed = Some h' /\
    phase_of h' <> Running.
Proof.
  eexists. split; [ reflexivity | ].
  eapply (only_submit_starts_running
            [StepEvent step1; StopClicked; TaskEdited "other";
             TerminalEvent (Wire.DoneData "OK")] failed).
  - reflexivity.
  - discriminate.
  - reflexivity.
Defined.

(** X4.  Only a form submission issues a request: over any run without
    one the list of calls made is unchanged. *)
Theorem only_submit_issues_requests (es : list Event) (h h' : Home) :
  none is_submit es = true ->
  run es h = Some h' ->
  requests h' = requests h.
Proof.
  intros N R.
  apply (run_keeps (fun e => negb (is_submit e))
           (fun x => requests x = requests h))
    with (es := es) (h := h); try assumption; [ | reflexivity ].
  intros e h1 h2 A Q M.
  inversion M; subst; simpl in *; try discriminate A; assumption.
Qed.

Lemma only_submit_issues_requests_witness :
  requests failed = requests submitted.
Proof.
  apply (only_submit_issues_requests
           [StepEvent step1; StepEvent step_loading;
            TerminalEvent (Wire.ErrorData "timeout")] submitted failed);
    reflexivity.
Defined.

(** X5.  Every call the page ever makes is a POST to the run-task address
    whose body is an object with the one field [task], a text that is not
    empty: this holds after any run of events from the first render. *)
Theorem requests_carry_a_task (es : list Event) (h' : Home) :
  run es initial = Some h' ->
  Forall (fun r =>
            url r = "http://localhost:8000/run-task" /\
            method r = "POST" /\
            exists t, t <> "" /\ body r = Obj [("task", Str t)])
         (requests h').
Proof.
  intro R.
  apply (run_keeps any_event
           (fun x => Forall (fun r =>
                               url r = "http://localhost:8000/run-task" /\
                               method r = "POST" /\
                               exists t, t <> "" /\ body r = Obj [("task", Str t)])
                            (requests x)))
    with (es := es) (h := initial); try assumption.
  - intros e h1 h2 _ F M.
    inversion M; subst; simpl in *; try assumption.
    apply Forall_app. split; [ assumption | ].
    constructor; [ | constructor ].
    simpl. repeat split. eexists. split; [ eassumption | reflexivity ].
  - apply forallb_any.
  - constructor.
Qed.

Lemma requests_carry_a_task_witness :
  Forall (fun r =>
            url r = "http://localhost:8000/run-task" /\
            method r = "POST" /\
            exists t, t <> "" /\ body r = Obj [("task", Str t)])
         (requests submitted).
Proof.
  apply (requests_carry_a_task
           [Mount; WsOpen; TaskEdited ""; FormSubmitted; TaskEdited "task X";
            FormSubmitted; FetchSettled accepted_reply] submitted).
  reflexivity.
Defined.

(** X6.  Only the textarea changes the task text: over any run without an
    edit the text is unchanged, and an edit that arrives while the page is
    running changes nothing at all. *)
Theorem only_the_textarea_sets_the_task (es : list Event) (h h' : Home) :
  none is_edit es = true ->
  run es h = Some h' ->
  task (state h') = task (state h) /\
  (forall text, isLoading (state h') = true ->
                run [TaskEdited text] h' = Some h').
Proof.
  intros N R. split.
  - apply (run_keeps (fun e => negb (is_edit e))
             (fun x => task (state x) = task (state h)))
      with (es := es) (h := h); try assumption; [ | reflexivity ].
    intros e h1 h2 A T M.
    inversion M; subst; simpl in *; try discriminate A; try assumption.
    match goal with Eff : onmessage_effect _ _ |- _ => inversion Eff; subst; simpl end;
      assumption.
  - intros text L. simpl. unfold after. unfold_handler. simpl.
    rewrite L. reflexivity.
Qed.

Lemma only_the_textarea_sets_the_task_witness :
  task (state busy) = task (state submitted) /\
  run [TaskEdited "other"] busy = Some busy.
Proof.
  destruct (only_the_textarea_sets_the_task [StepEvent step1] submitted busy
              eq_refl eq_refl) as [T E].
  split; [ exact T | apply E; reflexivity ].
Defined.

(** ** The socket *)

(** X7.  The only frame the page ever writes to its socket is the token
    "stop": this holds after any run of events from the first render. *)
Theorem only_stop_is_written (es : list Event) (h' : Home) :
  run es initial = Some h' ->
  Forall (fun frame => frame = "stop") (sent_frames h').
Proof.
  intro R.
  apply (run_keeps any_event
           (fun x => Forall (fun frame => frame = "stop") (sent_frames x)))
    with (es := es) (h := initial); try assumption.
  - intros e h1 h2 _ F M. unfold sent_frames in *.
    inversion M; subst; simpl in *; try assumption.
    + constructor.
    + destruct (wsRef h1); assumption.
    + destruct (wsRef h1); assumption.
    + match goal with W : wsRef h1 = Some _ |- _ => rewrite W in F end.
      apply Forall_app. split; [ assumption | ]. constructor; auto.
  - apply forallb_any.
  - constructor.
Qed.

Lemma only_stop_is_written_witness :
  exists h',
    run [Mount; WsOpen; FormSubmitted; StopClicked; StepEvent step1; StopClicked]
        initial = Some h' /\
    sent_frames h' = ["stop"; "stop"] /\
    Forall (fun frame => frame = "stop") (sent_frames h').
Proof.
  eexists. split; [ vm_compute; reflexivity | ]. split; [ reflexivity | ].
  apply (only_stop_is_written
           [Mount; WsOpen; FormSubmitted; StopClicked; StepEvent step1; StopClicked]).
  vm_compute. reflexivity.
Defined.

(** X8.  A socket that is not open is never written to, and nothing but
    the socket's own open event opens it: over any run without a mount or an
    open event, a page whose socket is absent, connecting, closing or closed
    writes no frame, whatever is clicked, and its socket is still not
    open. *)
Theorem nothing_is_written_unless_open (es : list Event) (h h' : Home) :
  none opens_socket es = true ->
  is_open (wsRef h) = false ->
  run es h = Some h' ->
  sent_frames h' = sent_frames h /\ is_open (wsRef h') = false.
Proof.
  intros N O R.
  apply (run_keeps (fun e => negb (opens_socket e))
           (fun x => sent_frames x = sent_frames h /\ is_open (wsRef x) = false))
    with (es := es) (h := h); try assumption; [ | split; [ reflexivity | assumption ] ].
  intros e h1 h2 A [F C] M. unfold sent_frames in *.
  inversion M; subst; simpl in *; try discriminate A; try (split; assumption).
  - destruct (wsRef h1); split; auto.
  - match goal with W : wsRef h1 = Some ?ws, Q : readyState ?ws = OPEN |- _ =>
      rewrite W in C; destruct ws as [r frames]; simpl in Q; subst r;
      discriminate C
    end.
Qed.

Lemma nothing_is_written_unless_open_witness :
  snd (cleanup busy) = torn_down /\
  exists h',
    run [StopClicked; StepEvent step1; StopClicked; WsClose; StopClicked] torn_down
      = Some h' /\
    sent_frames h' = [] /\ is_open (wsRef h') = false.
Proof.
  split; [ reflexivity | ].
  eexists. split; [ vm_compute; reflexivity | ].
  apply (nothing_is_written_unless_open
           [StopClicked; StepEvent step1; StopClicked; WsClose; StopClicked]
           torn_down); vm_compute; reflexivity.
Defined.

(** X9.  Stop is not debounced: on a running page with an open socket,
    [k] clicks in a row write [k] tokens after the frames already written,
    and change nothing else. *)
Theorem each_stop_click_writes_a_token (k : nat) (h : Home) (ws : WebSocket) :
  isLoading (state h) = true ->
  wsRef h = Some ws ->
  readyState ws = OPEN ->
  run (repeat StopClicked k) h =
  Some (mkHome (state h) (Some (mkSocket OPEN (sent ws ++ repeat "stop" k)))
               (requests h) (awaiting h) (console h)).
Proof.
  revert h ws. induction k as [ | k IH]; intros h ws L W O.
  - simpl. rewrite app_nil_r.
    destruct h as [s w rq aw co]. simpl in *. subst w.
    destruct ws as [r frames]. simpl in O. subst r. reflexivity.
  - destruct h as [s w rq aw co]. simpl in L, W. subst w.
    destruct ws as [r frames]. simpl in O. subst r.
    simpl run. unfold after. simpl handle.
    unfold stop_click, handleStop, send. unfold_handler. simpl.
    rewrite L. simpl.
    rewrite (IH (mkHome s (Some (mkSocket OPEN (frames ++ ["stop"]))) rq aw co)
                (mkSocket OPEN (frames ++ ["stop"])) L eq_refl eq_refl).
    simpl. rewrite <- app_assoc. reflexivity.
Qed.

Lemma each_stop_click_writes_a_token_witness :
  run [StopClicked; StopClicked; StopClicked] busy =
  Some (mkHome (state busy) (Some (mkSocket OPEN ["stop"; "stop"; "stop"]))
               (requests busy) (awaiting busy) (console busy)).
Proof.
  apply (each_stop_click_writes_a_token 3 busy (mkSocket OPEN []));
    reflexivity.
Defined.

(** ** The reply to a submission *)

(** X10.  An [ok] response does not end the session by itself.  When its
    body reads as JSON the state cells are untouched and the body goes to
    the console.  When [response.json()] rejects, the [catch] block records
    the rejection's message as the error and the page stops running, though
    the task was started; the log, the frame and the result are kept. *)
Theorem reply_to_an_ok_response (h : Home) (n : nat) :
  awaiting h = S n ->
  (forall data,
      run [FetchSettled (Response true (inr data))] h =
      Some (mkHome (state h) (wsRef h) (requests h) n
                   (console h ++ [console_log [Val data]]))) /\
  (forall message,
      exists h',
        run [FetchSettled (Response true (inl message))] h = Some h' /\
        error (state h') = Str message /\
        isLoading (state h') = false /\
        task (state h') = task (state h) /\
        logs (state h') = logs (state h) /\
        screenshot (state h') = screenshot (state h) /\
        result (state h') = result (state h) /\
        requests h' = requests h /\
        console h' = console h).
Proof.
  intro A. split.
  - intro data. simpl. unfold after, settle. rewrite A. reflexivity.
  - intro message. simpl. unfold after, settle. rewrite A.
    eexists. split; [ reflexivity | ]. simpl. repeat split.
Qed.

Lemma reply_to_an_ok_response_witness :
  exists h',
    run [FormSubmitted; FetchSettled (Response true (inl "Unexpected end of JSON input"))]
        failed = Some h' /\
    error (state h') = Str "Unexpected end of JSON input" /\
    isLoading (state h') = false.
Proof.
  destruct (proj2 (reply_to_an_ok_response
                     (mkHome (mkState "task X" [] None (Str "") Null true)
                             (wsRef failed)
                             [run_task "task X"; run_task "task X"] 1
                             (console failed))
                     0 eq_refl)
              "Unexpected end of JSON input") as (h' & R & E & L & _).
  exists h'. split; [ exact R | split; assumption ].
Defined.

(** ** Messages outside the declared shapes *)

(** X11.  A parsed object with a [status] field never makes the handler
    throw and never touches the log, the frame or the task.  With a status
    other than "done" and "error" the page is unchanged.  With one of the
    two, the page stops running when the text it carries can be rendered;
    when that text is an object, or an array holding one, the render fails
    and the page is taken down. *)
Theorem message_with_status (props : list (string * value)) (h : Home) :
  hasOwn "status" props = true ->
  (stored (Obj props) = None ->
   onmessage (Some (Obj props)) h = (Returns tt, h)) /\
  (forall x,
      stored (Obj props) = Some x -> valid_child x = true ->
      exists h',
        onmessage (Some (Obj props)) h = (Returns tt, h') /\
        logs (state h') = logs (state h) /\
        screenshot (state h') = screenshot (state h) /\
        task (state h') = task (state h) /\
        isLoading (state h') = false) /\
  (forall x,
      stored (Obj props) = Some x -> valid_child x = false ->
      after (onmessage (Some (Obj props))) h = None).
Proof.
  intro S. unfold stored, after, onmessage. unfold_handler. simpl. rewrite S.
  simpl.
  destruct (is_str _ "done"); simpl;
    [ | destruct (is_str _ "error"); simpl ].
  - split; [ discriminate | ].
    split; intros x E V; injection E as E; rewrite E, V; simpl;
      [ eexists; split; [ reflexivity | ]; simpl; auto | reflexivity ].
  - split; [ discriminate | ].
    split; intros x E V; injection E as E; rewrite E, V; simpl;
      [ eexists; split; [ reflexivity | ]; simpl; auto | reflexivity ].
  - split; [ reflexivity | ].
    split; intros x E; discriminate E.
Qed.

Lemma message_with_status_witness :
  onmessage (Some (Obj [("status", Num (Int 200 eq_refl)); ("step", Num (Int 1 eq_refl))])) busy
    = (Returns tt, busy) /\
  after (onmessage (Some (Obj [("status", Str "done");
                               ("result", Obj [("a", Num (Int 1 eq_refl))])]))) busy
    = None.
Proof.
  split.
  - apply (proj1 (message_with_status
                    [("status", Num (Int 200 eq_refl)); ("step", Num (Int 1 eq_refl))]
                    busy eq_refl)).
    reflexivity.
  - apply (proj2 (proj2 (message_with_status
                           [("status", Str "done");
                            ("result", Obj [("a", Num (Int 1 eq_refl))])]
                           busy eq_refl))
             (Obj [("a", Num (Int 1 eq_refl))])); reflexivity.
Defined.

(** X12.  A terminal message that lacks its text is still terminal: "done"
    without [result] stores [undefined] as the result, "error" without
    [message] stores [undefined] as the error; the page stops running and
    the matching panel is not rendered. *)
Theorem terminal_message_without_text (props : list (string * value)) (h : Home) :
  (own "status" props = Some (Str "done") -> own "result" props = None ->
   exists h',
     run [WsMessage (Some (Obj props))] h = Some h' /\
     result (state h') = Undefined /\
     error (state h') = error (state h) /\
     isLoading (state h') = false /\
     JSX.result_slot (render (state h')) = JSX.Falsy Undefined) /\
  (own "status" props = Some (Str "error") -> own "message" props = None ->
   exists h',
     run [WsMessage (Some (Obj props))] h = Some h' /\
     error (state h') = Undefined /\
     result (state h') = result (state h) /\
     isLoading (state h') = false /\
     JSX.error_slot (render (state h')) = JSX.Falsy Undefined).
Proof.
  split; intros S K; simpl; unfold after, onmessage; unfold_handler;
    simpl; unfold hasOwn; rewrite S; simpl; rewrite K; simpl;
    eexists; (split; [ reflexivity | ]); simpl; auto.
Qed.

Lemma terminal_message_without_text_witness :
  exists h',
    run [WsMessage (Some (Obj [("status", Str "done")]))] busy = Some h' /\
    result (state h') = Undefined /\
    isLoading (state h') = false.
Proof.
  destruct (proj1 (terminal_message_without_text [("status", Str "done")] busy)
              eq_refl eq_refl) as (h' & R & U & _ & L & _).
  exists h'. split; [ exact R | split; assumption ].
Defined.

(** X13.  The events that take the page down are the messages whose
    content the render cannot show: a message without [status] whose
    [step] or [thought] has no text (an object with an own [toString]
    field), and a "done" or "error" message whose [result] or [message] is
    an object or an array holding one.  A message that is not JSON or
    parses to a primitive only makes the handler throw.  So every run whose
    events are all of the other kinds leaves the page mounted. *)
Theorem page_stays_mounted (es : list Event) (h : Home) :
  (forall e, after (handle e) h = None <-> survivable e = false) /\
  (forallb survivable es = true -> exists h', run es h = Some h').
Proof.
  assert (forall e x, after (handle e) x = None <-> survivable e = false) as One.
  { intros e x. split.
    - intro N. destruct e; simpl in *;
        try (destruct (survivable _) eqn:S; [ | reflexivity ]);
        unfold after in N.
      + discriminate N.
      + unfold_handler. simpl in N. discriminate N.
      + destruct d as [v | ]; [ | discriminate N ].
        unfold onmessage in N. unfold stored. unfold_handler. simpl in N.
        destruct (has "status" v) as [[ | ] | ]; simpl in N.
        * destruct (is_str _ "done"); simpl in N;
            [ destruct (valid_child (get v "result")); simpl in N;
              [ discriminate N | reflexivity ]
            | destruct (is_str _ "error"); simpl in N;
              [ destruct (valid_child (get v "message")); simpl in N;
                [ discriminate N | reflexivity ]
              | discriminate N ] ].
        * destruct (step_line v); [ | reflexivity ]. simpl in N.
          destruct (ToBoolean _); simpl in N;
            [ destruct (ToString (get v "screenshot")); simpl in N | ];
            discriminate N.
        * discriminate N.
      + unfold_handler. simpl in N. discriminate N.
      + unfold_handler. simpl in N. discriminate N.
      + unfold_handler. simpl in N.
        destruct (isLoading (state x)); discriminate N.
      + apply handle_moves_total_submit in N. destruct N.
      + unfold settle in N. destruct (awaiting x); [ discriminate N | ].
        destruct o as [m | [ | ] [m | data]]; discriminate N.
      + unfold stop_click, handleStop, send in N. unfold_handler. simpl in N.
        destruct (isLoading (state x)); simpl in N;
          [ destruct (is_open (wsRef x)) | ]; discriminate N.
    - intro S. destruct e; try discriminate S. simpl in S.
      destruct d as [v | ]; [ | discriminate S ].
      unfold after. simpl. unfold onmessage. unfold stored in S.
      unfold_handler. simpl.
      destruct (has "status" v) as [[ | ] | ]; try discriminate S; simpl.
      + destruct (is_str _ "done"); simpl;
          [ rewrite S; reflexivity | ].
        destruct (is_str _ "error"); simpl;
          [ rewrite S; reflexivity | discriminate S ].
      + destruct (step_line v); [ discriminate S | reflexivity ]. }
  split; [ intro e; apply One | ].
  revert h. induction es as [ | e es IH]; simpl; intros h S.
  - exists h. reflexivity.
  - apply andb_prop in S as [Se Ses].
    destruct (after (handle e) h) as [h1 | ] eqn:E.
    + apply IH. exact Ses.
    + apply One in E. congruence.
Qed.

Lemma page_stays_mounted_witness :
  after (handle (WsMessage (Some (Obj [("step", Obj [("toString", Null)])])))) busy
    = None /\
  after (handle (WsMessage (Some (Obj [("status", Str "error");
                                       ("message", Arr [Obj []])])))) busy
    = None /\
  exists h',
    run [WsMessage None; WsMessage (Some Null); WsMessage (Some (Arr []));
         StepEvent step1;
         WsMessage (Some (Obj [("status", Str "done");
                               ("result", Arr [Str "a"; Num (Int 1 eq_refl)])]))]
        busy = Some h'.
Proof.
  split; [ | split ].
  - apply (proj1 (page_stays_mounted [] busy)). reflexivity.
  - apply (proj1 (page_stays_mounted [] busy)). reflexivity.
  - apply (proj2 (page_stays_mounted
                    [WsMessage None; WsMessage (Some Null);
                     WsMessage (Some (Arr [])); StepEvent step1;
                     WsMessage (Some (Obj [("status", Str "done");
                                           ("result", Arr [Str "a"; Num (Int 1 eq_refl)])]))]
                    busy)).
    reflexivity.
Defined.

(** ** The rendered page *)

(** X14.  In every state exactly one of the two buttons is disabled, and
    an event on a control that is rendered disabled changes nothing: an
    edit of the disabled textarea, a submission while the Run button is
    disabled, a click on the disabled Stop button. *)
Theorem disabled_controls_are_inert (h : Home) :
  JSX.disabled (JSX.run_button (render (state h)))
    = negb (JSX.disabled (JSX.stop_button (render (state h)))) /\
  (JSX.readonly (JSX.textarea (render (state h))) = true ->
   forall text, run [TaskEdited text] h = Some h) /\
  (JSX.disabled (JSX.run_button (render (state h))) = true ->
   run [FormSubmitted] h = Some h) /\
  (JSX.disabled (JSX.stop_button (render (state h))) = true ->
   run [StopClicked] h = Some h).
Proof.
  simpl. split; [ symmetry; apply negb_involutive | ].
  split; [ | split ].
  - intros L text. unfold after. unfold_handler. simpl. rewrite L. reflexivity.
  - intro L. unfold after, form_submit.
    rewrite handleSubmit_rejects by (left; exact L). reflexivity.
  - intro L. apply negb_true_iff in L.
    unfold after. unfold_handler. simpl. rewrite L. reflexivity.
Qed.

Lemma disabled_controls_are_inert_witness :
  run [TaskEdited "other"] busy = Some busy /\
  run [FormSubmitted] busy = Some busy /\
  run [StopClicked] failed = Some failed.
Proof.
  split; [ | split ].
  - apply (proj1 (proj2 (disabled_controls_are_inert busy))). reflexivity.
  - apply (proj1 (proj2 (proj2 (disabled_controls_are_inert busy)))). reflexivity.
  - apply (proj2 (proj2 (proj2 (disabled_controls_are_inert failed)))). reflexivity.
Defined.

(** X15.  The frame cell only ever holds a PNG data URL: after any run of
    events from the first render it is null or
    "data:image/png;base64," followed by a payload, and the image element
    is rendered, with the cell as its source, exactly when the cell is not
    null. *)
Theorem frame_is_a_data_url (es : list Event) (h' : Home) :
  run es initial = Some h' ->
  (screenshot (state h') = None \/
   exists payload,
     screenshot (state h') = Some ("data:image/png;base64," ++ payload)) /\
  JSX.img_src (render (state h')) = screenshot (state h').
Proof.
  intro R.
  assert (screenshot (state h') = None \/
          exists payload, screenshot (state h') = Some (data_url payload)) as I.
  { apply (run_keeps any_event
             (fun x => screenshot (state x) = None \/
                       exists payload,
                         screenshot (state x) = Some (data_url payload)))
      with (es := es) (h := initial); try assumption.
    - intros e h1 h2 _ F M.
      inversion M; subst; simpl in *; try assumption; try (left; reflexivity).
      match goal with Eff : onmessage_effect _ _ |- _ =>
        inversion Eff; subst; simpl end;
        try assumption.
      right. eexists. reflexivity.
    - apply forallb_any.
    - left. reflexivity. }
  split; [ exact I | ].
  simpl. destruct I as [-> | [payload ->]]; reflexivity.
Qed.

Lemma frame_is_a_data_url_witness :
  JSX.img_src (render (state failed)) = Some "data:image/png;base64,AAAA".
Proof.
  rewrite (proj2 (frame_is_a_data_url
                    [Mount; WsOpen; TaskEdited "task X"; FormSubmitted;
                     FetchSettled accepted_reply; StepEvent step1;
                     StepEvent step_loading;
                     TerminalEvent (Wire.ErrorData "timeout")] failed eq_refl)).
  reflexivity.
Defined.

(** X16.  When an awaited submission ends in the [catch] block, the Error
    panel shows the caught message exactly when that message is not empty;
    with an empty message no panel is rendered although the error is
    recorded and the page has stopped running. *)
Theorem error_panel_after_failure
    (h : Home) (n : nat) (o : FetchOutcome) (message : string) :
  awaiting h = S n ->
  caught o = Some message ->
  exists h',
    run [FetchSettled o] h = Some h' /\
    error (state h') = Str message /\
    isLoading (state h') = false /\
    JSX.error_slot (render (state h')) =
      (if String.eqb message "" then JSX.Falsy (Str "")
       else JSX.Panel "Error" (Str message)).
Proof.
  intros A C.
  exists (mkHome (mkState (task (state h)) (logs (state h)) (screenshot (state h))
                          (result (state h)) (Str message) false)
                 (wsRef h) (requests h) n (console h)).
  split.
  - simpl. unfold after, settle. rewrite A.
    destruct o as [m | [ | ] [m | data]]; simpl in C;
      try discriminate C; injection C as <-; reflexivity.
  - simpl. repeat split. unfold slot. simpl.
    destruct (String.eqb message "") eqn:E; simpl; [ | reflexivity ].
    apply String.eqb_eq in E. subst message. reflexivity.
Qed.

Lemma error_panel_after_failure_witness :
  exists h',
    run [FetchSettled (Rejected "")]
        (mkHome (state submitted) (wsRef submitted) (requests submitted) 1
                (console submitted)) = Some h' /\
    error (state h') = Str "" /\
    JSX.error_slot (render (state h')) = JSX.Falsy (Str "").
Proof.
  destruct (error_panel_after_failure
              (mkHome (state submitted) (wsRef submitted) (requests submitted) 1
                      (console submitted))
              0 (Rejected "") "" eq_refl eq_refl) as (h' & R & E & _ & P).
  exists h'. split; [ exact R | split; assumption ].
Defined.

(** X17.  An accepted submission wipes what the previous session showed:
    right after it the page renders the placeholder in place of the update
    list, no image, no Error panel and no Result panel, the Run button reads
    "Running..." and the textarea still holds the submitted text. *)
Theorem accepted_submit_clears_the_view (h : Home) :
  phase_of h <> Running ->
  task (state h) <> "" ->
  exists h',
    run [FormSubmitted] h = Some h' /\
    JSX.updates (render (state h')) = JSX.Placeholder "No updates yet..." /\
    JSX.img_src (render (state h')) = None /\
    JSX.error_slot (render (state h')) = JSX.Falsy Null /\
    JSX.result_slot (render (state h')) = JSX.Falsy (Str "") /\
    JSX.label (JSX.run_button (render (state h'))) = "Running..." /\
    JSX.value (JSX.textarea (render (state h'))) = task (state h).
Proof.
  intros P T. apply phase_not_running in P.
  eexists. split.
  - simpl. unfold after, form_submit.
    rewrite (handleSubmit_accepts h P T). reflexivity.
  - repeat split.
Qed.

Lemma accepted_submit_clears_the_view_witness :
  exists h',
    run [FormSubmitted] failed = Some h' /\
    JSX.updates (render (state h')) = JSX.Placeholder "No updates yet..." /\
    JSX.img_src (render (state h')) = None.
Proof.
  destruct (accepted_submit_clears_the_view failed) as (h' & R & U & I & _).
  - discriminate.
  - discriminate.
  - exists h'. split; [ exact R | split; assumption ].
Defined.
